(** * VueFire App Check module ([src/app-check/index.ts])

    A shallow embedding of the App Check integration of VueFire: the
    setup routine returned by [VueFireAppCheck], the [AppCheckMap]
    registry, the accessors [useAppCheck], [useAppCheckToken] and
    [getAppCheckToken], and the [onTokenChanged] callback that mirrors the
    SDK's token into a Vue [ref].

    JavaScript objects that the module only passes around (the Firebase
    app, the Vue app, the App Check client, the token ref) are modelled by
    their identity.  The mutable state the module touches (the WeakMap,
    the global [self.FIREBASE_APPCHECK_DEBUG_TOKEN], the provided values
    of each Vue app, the refs, the SDK's listener list) is one record,
    threaded through a state-and-exception monad. *)

From stdpp Require Import gmap strings list fin_maps.

Local Open Scope string_scope.
Local Open Scope list_scope.

(** ** Object identities *)

(** [FirebaseApp] of [firebase/app]: only used as a WeakMap key. *)
Record FirebaseApp := FirebaseAppObj { firebaseApp_id : nat }.

(** [App] of [vue-demi]: the target of [app.provide]. *)
Record App := AppObj { app_id : nat }.

(** [AppCheck] of [firebase/app-check]: the client returned by
    [initializeAppCheck]. *)
Record AppCheck := AppCheckObj { appCheck_id : nat }.

(** [Ref<string | undefined>]: the address of the cell in the store. *)
Record TokenRef := TokenRefObj { ref_addr : nat }.

#[global] Instance FirebaseApp_eq_dec : EqDecision FirebaseApp.
Proof. solve_decision. Defined.
#[global] Instance App_eq_dec : EqDecision App.
Proof. solve_decision. Defined.
#[global] Instance AppCheck_eq_dec : EqDecision AppCheck.
Proof. solve_decision. Defined.
#[global] Instance TokenRef_eq_dec : EqDecision TokenRef.
Proof. solve_decision. Defined.

#[global] Instance FirebaseApp_countable : Countable FirebaseApp.
Proof. by apply (inj_countable' firebaseApp_id FirebaseAppObj); intros []. Defined.
#[global] Instance App_countable : Countable App.
Proof. by apply (inj_countable' app_id AppObj); intros []. Defined.

(** ** Values *)

(** [AppCheckTokenResult]: [{ token: string }]. *)
Record AppCheckTokenResult := { token : string }.

(** The [debug?: boolean | string] option; an absent option is [None]
    at the use site. *)
Inductive DebugOption :=
| DebugBool (b : bool)
| DebugString (s : string).

#[global] Instance DebugOption_eq_dec : EqDecision DebugOption.
Proof. solve_decision. Defined.

(** JavaScript truthiness of a [boolean | string | undefined]:
    [undefined], [false] and the empty string are falsy. *)
Definition truthy (d : option DebugOption) : bool :=
  match d with
  | None => false
  | Some (DebugBool b) => b
  | Some (DebugString s) => negb (String.eqb s "")
  end.

(** [VueFireAppCheckOptions extends AppCheckOptions].  The SDK's own
    fields are opaque to this module; they are carried along unchanged. *)
Record VueFireAppCheckOptions := {
  provider : string;
  isTokenAutoRefreshEnabled : option bool;
  debug : option DebugOption
}.

(** A thrown JavaScript error. *)
Inductive JsError := Error (msg : string).

(** How a call completes. *)
Inductive Completion (A : Type) :=
| Normal (a : A)
| Throw (e : JsError).
Arguments Normal {A} a.
Arguments Throw {A} e.

(** The outcome a [Promise<A>] settles to. *)
Inductive Promise (A : Type) :=
| Fulfilled (a : A)
| Rejected (e : JsError).
Arguments Fulfilled {A} a.
Arguments Rejected {A} e.

(** The callback handed to [onTokenChanged].  The source has one such
    closure, [(newToken) => { token.value = newToken.token }], which
    captures the ref [token]. *)
Inductive TokenListener :=
| MirrorInto (cell : TokenRef).

(** ** Effects, in program order *)

Inductive Event :=
| EvProvide (app : App) (cell : TokenRef)
    (* app.provide(AppCheckTokenInjectSymbol, token) *)
| EvSetDebugGlobal (v : option DebugOption)
    (* self.FIREBASE_APPCHECK_DEBUG_TOKEN = options.debug *)
| EvInitializeAppCheck (firebaseApp : FirebaseApp)
    (options : VueFireAppCheckOptions) (res : JsError + AppCheck)
    (* initializeAppCheck(firebaseApp, options) and what it returned *)
| EvOnTokenChanged (appCheck : AppCheck) (cb : TokenListener)
    (* onTokenChanged(appCheck, cb) *)
| EvMapSet (firebaseApp : FirebaseApp) (appCheck : AppCheck)
    (* AppCheckMap.set(firebaseApp, appCheck) *)
| EvAssignToken (cell : TokenRef) (v : string)
    (* token.value = newToken.token *)
| EvGetToken (appCheck : AppCheck) (forceRefresh : option bool)
    (* getToken(appCheck, forceRefresh) *).

(** ** The state *)

Record World := mkWorld {
  (** [AppCheckMap = new WeakMap<FirebaseApp, AppCheck>()] *)
  AppCheckMap : gmap FirebaseApp AppCheck;
  (** [self.FIREBASE_APPCHECK_DEBUG_TOKEN]; [None] is [undefined] *)
  FIREBASE_APPCHECK_DEBUG_TOKEN : option DebugOption;
  (** the value provided under [AppCheckTokenInjectSymbol] in each app *)
  provides : gmap App TokenRef;
  (** the store of refs; [None] is a ref whose value is [undefined] *)
  refs : list (option string);
  (** the listeners subscribed with [onTokenChanged], oldest first *)
  tokenListeners : list (AppCheck * TokenListener);
  (** the effects performed so far, oldest first *)
  trace : list Event
}.

Definition initial_world : World :=
  mkWorld ∅ None ∅ [] [] [].

Definition log (e : Event) (w : World) : World :=
  mkWorld (AppCheckMap w) (FIREBASE_APPCHECK_DEBUG_TOKEN w) (provides w)
          (refs w) (tokenListeners w) (trace w ++ [e]).

(** ** The monad *)

Definition M (A : Type) : Type := World -> Completion A * World.

Definition ret {A} (a : A) : M A := fun w => (Normal a, w).

Definition bind {A B} (m : M A) (k : A -> M B) : M B :=
  fun w =>
    match m w with
    | (Normal a, w') => k a w'
    | (Throw e, w') => (Throw e, w')
    end.

Definition lift {A} (r : JsError + A) : M A :=
  fun w =>
    match r with
    | inl e => (Throw e, w)
    | inr a => (Normal a, w)
    end.

Notation "x <- m ;; k" := (bind m (fun x => k))
  (at level 100, m at next level, right associativity).
Notation "m ;;; k" := (bind m (fun _ => k))
  (at level 100, right associativity).

(** ** Primitive operations of the host: Vue, the global object, the map *)

(** [ref<string>()]: a new cell holding [undefined]. *)
Definition ref_new : M TokenRef :=
  fun w =>
    (Normal (TokenRefObj (length (refs w))),
     mkWorld (AppCheckMap w) (FIREBASE_APPCHECK_DEBUG_TOKEN w) (provides w)
             (refs w ++ [None]) (tokenListeners w) (trace w)).

(** Modelled from the spec: [getGlobalScope] of [../globals] is not
    among the sources. The spec has the setup routine "create a
    reactive cell" at this point and nothing else, so running a function
    in the scope of [(firebaseApp, app)] is running it:
    [getGlobalScope(firebaseApp, app).run(f)] is [f()]. *)
Definition getGlobalScope_run {A} (firebaseApp : FirebaseApp) (app : App)
    (f : M A) : M A := f.

(** [cell.value = v]. *)
Definition ref_set (cell : TokenRef) (v : string) : M unit :=
  fun w =>
    (Normal tt,
     log (EvAssignToken cell v)
       (mkWorld (AppCheckMap w) (FIREBASE_APPCHECK_DEBUG_TOKEN w) (provides w)
                (<[ref_addr cell := Some v]> (refs w)) (tokenListeners w)
                (trace w))).

(** [cell.value]; [None] is [undefined]. *)
Definition ref_value (cell : TokenRef) (w : World) : option string :=
  default None (refs w !! ref_addr cell).

(** [app.provide(AppCheckTokenInjectSymbol, cell)]. *)
Definition app_provide (app : App) (cell : TokenRef) : M unit :=
  fun w =>
    (Normal tt,
     log (EvProvide app cell)
       (mkWorld (AppCheckMap w) (FIREBASE_APPCHECK_DEBUG_TOKEN w)
                (<[app := cell]> (provides w)) (refs w) (tokenListeners w)
                (trace w))).

(** [inject(AppCheckTokenInjectSymbol)] in the context of [app]. *)
Definition app_inject (app : App) : M (option TokenRef) :=
  fun w => (Normal (provides w !! app), w).

(** [self.FIREBASE_APPCHECK_DEBUG_TOKEN = v]. *)
Definition set_FIREBASE_APPCHECK_DEBUG_TOKEN (v : option DebugOption) : M unit :=
  fun w =>
    (Normal tt,
     log (EvSetDebugGlobal v)
       (mkWorld (AppCheckMap w) v (provides w) (refs w) (tokenListeners w)
                (trace w))).

(** [AppCheckMap.set(firebaseApp, appCheck)]: a WeakMap's [set] replaces
    an existing entry. *)
Definition AppCheckMap_set (firebaseApp : FirebaseApp) (appCheck : AppCheck)
  : M unit :=
  fun w =>
    (Normal tt,
     log (EvMapSet firebaseApp appCheck)
       (mkWorld (<[firebaseApp := appCheck]> (AppCheckMap w))
                (FIREBASE_APPCHECK_DEBUG_TOKEN w) (provides w) (refs w)
                (tokenListeners w) (trace w))).

(** [AppCheckMap.get(firebaseApp)]; [None] is [undefined]. *)
Definition AppCheckMap_get (firebaseApp : FirebaseApp) : M (option AppCheck) :=
  fun w => (Normal (AppCheckMap w !! firebaseApp), w).

(** [onTokenChanged(appCheck, cb)]: the SDK keeps the listener. *)
Definition onTokenChanged (appCheck : AppCheck) (cb : TokenListener) : M unit :=
  fun w =>
    (Normal tt,
     log (EvOnTokenChanged appCheck cb)
       (mkWorld (AppCheckMap w) (FIREBASE_APPCHECK_DEBUG_TOKEN w) (provides w)
                (refs w) (tokenListeners w ++ [(appCheck, cb)]) (trace w))).

(** Running a listener: the body of the arrow function in the source,
    [token.value = newToken.token]. *)
Definition invoke (cb : TokenListener) (newToken : AppCheckTokenResult) : M unit :=
  match cb with
  | MirrorInto cell => ref_set cell (token newToken)
  end.

(** The SDK delivers a token change of [appCheck] to each of that
    client's listeners, in subscription order. *)
Fixpoint deliver (ls : list (AppCheck * TokenListener)) (appCheck : AppCheck)
    (newToken : AppCheckTokenResult) : M unit :=
  match ls with
  | [] => ret tt
  | (ac, cb) :: ls' =>
      (if decide (ac = appCheck) then invoke cb newToken else ret tt) ;;;
      deliver ls' appCheck newToken
  end.

Definition tokenChanged (appCheck : AppCheck) (newToken : AppCheckTokenResult)
  : M unit :=
  fun w => deliver (tokenListeners w) appCheck newToken w.

Section AppCheckModule.

(** [isClient] of [../shared]. *)
Variable isClient : bool.

(** [useFirebaseApp] of [../app]: resolves an optional app name to a
    Firebase app, or throws. *)
Variable useFirebaseApp : option string -> JsError + FirebaseApp.

(** The SDK's [initializeAppCheck]: it may read anything of the state
    it is called in (the debug global in particular), and returns a
    client or throws. *)
Variable sdk_initializeAppCheck :
  World -> FirebaseApp -> VueFireAppCheckOptions -> JsError + AppCheck.

(** The SDK's [getToken]: the outcome of the promise it returns. *)
Variable sdk_getToken :
  World -> AppCheck -> option bool -> Promise AppCheckTokenResult.

Definition initializeAppCheck (firebaseApp : FirebaseApp)
    (options : VueFireAppCheckOptions) : M AppCheck :=
  fun w =>
    let res := sdk_initializeAppCheck w firebaseApp options in
    lift res (log (EvInitializeAppCheck firebaseApp options res) w).

Definition getToken (appCheck : AppCheck) (forceRefresh : option bool)
  : M (Promise AppCheckTokenResult) :=
  fun w =>
    (Normal (sdk_getToken w appCheck forceRefresh),
     log (EvGetToken appCheck forceRefresh) w).

(** [useAppCheckToken()], called in the context of [app]:
    [inject(AppCheckTokenInjectSymbol)!]. The [!] is erased at run
    time. *)
Definition useAppCheckToken (app : App) : M (option TokenRef) :=
  app_inject app.

(** [VueFireAppCheck(options)(firebaseApp, app)]. *)
Definition VueFireAppCheck (options : VueFireAppCheckOptions)
    (firebaseApp : FirebaseApp) (app : App) : M unit :=
  if negb isClient then ret tt
  else
    (* getGlobalScope(firebaseApp, app).run(() => ref<string>())! *)
    token <- getGlobalScope_run firebaseApp app ref_new ;;
    app_provide app token ;;;
    (if truthy (debug options)
     then set_FIREBASE_APPCHECK_DEBUG_TOKEN (debug options)
     else ret tt) ;;;
    appCheck <- initializeAppCheck firebaseApp options ;;
    onTokenChanged appCheck (MirrorInto token) ;;;
    AppCheckMap_set firebaseApp appCheck.

(** [useAppCheck(name)]: [AppCheckMap.get(useFirebaseApp(name))!]. *)
Definition useAppCheck (name : option string) : M (option AppCheck) :=
  firebaseApp <- lift (useFirebaseApp name) ;;
  AppCheckMap_get firebaseApp.

(** [getAppCheckToken(name, forceRefresh)]. *)
Definition getAppCheckToken (name : option string)
    (forceRefresh : option bool) : M (Promise AppCheckTokenResult) :=
  appCheck <- useAppCheck name ;;
  match appCheck with
  | Some ac => getToken ac forceRefresh
  | None => ret (Fulfilled {| token := "" |})
  end.

(** ** Histories

    What can happen to the state: the module's exported functions are
    called, and the SDK emits token changes. *)

Inductive Action :=
| CallSetup (options : VueFireAppCheckOptions) (firebaseApp : FirebaseApp)
    (app : App)
| CallUseAppCheck (name : option string)
| CallUseAppCheckToken (app : App)
| CallGetAppCheckToken (name : option string) (forceRefresh : option bool)
| TokenChanged (appCheck : AppCheck) (newToken : AppCheckTokenResult).

Definition step (w : World) (a : Action) : World :=
  match a with
  | CallSetup options firebaseApp app =>
      snd (VueFireAppCheck options firebaseApp app w)
  | CallUseAppCheck name => snd (useAppCheck name w)
  | CallUseAppCheckToken app => snd (useAppCheckToken app w)
  | CallGetAppCheckToken name forceRefresh =>
      snd (getAppCheckToken name forceRefresh w)
  | TokenChanged appCheck newToken => snd (tokenChanged appCheck newToken w)
  end.

Definition run (acts : list Action) (w : World) : World :=
  foldl step w acts.

(** The tokens the SDK emitted for [appCheck], oldest first. *)
Fixpoint tokens_of (appCheck : AppCheck) (acts : list Action) : list string :=
  match acts with
  | [] => []
  | TokenChanged ac newToken :: acts' =>
      if decide (ac = appCheck)
      then token newToken :: tokens_of appCheck acts'
      else tokens_of appCheck acts'
  | _ :: acts' => tokens_of appCheck acts'
  end.

(** Whether the setup routine is called for [firebaseApp]. *)
Definition is_setup_of (firebaseApp : FirebaseApp) (a : Action) : bool :=
  match a with
  | CallSetup _ fa _ => bool_decide (fa = firebaseApp)
  | _ => false
  end.

End AppCheckModule.

(** The values assigned to [cell], oldest first. *)
Fixpoint assigned (cell : TokenRef) (tr : list Event) : list string :=
  match tr with
  | [] => []
  | EvAssignToken c v :: tr' =>
      if decide (c = cell) then v :: assigned cell tr' else assigned cell tr'
  | _ :: tr' => assigned cell tr'
  end.

(** Every listener writes to a ref that exists. *)
Definition listeners_allocated (w : World) : Prop :=
  Forall (fun l => match snd l with
                   | MirrorInto c => ref_addr c < length (refs w)
                   end) (tokenListeners w).

(** The listener's target ref. *)
Definition cell_of (cb : TokenListener) : TokenRef :=
  match cb with
  | MirrorInto c => c
  end.

(** The refs written when a token change of [appCheck] is delivered to
    the listeners [ls], in order. *)
Definition delivered_to (ls : list (AppCheck * TokenListener))
    (appCheck : AppCheck) : list TokenRef :=
  (fun l => cell_of (snd l)) <$> filter (fun l => fst l = appCheck) ls.

(** Assigning [Some v] to each of [cells] in turn. *)
Definition write_all (cells : list TokenRef) (v : string)
    (rs : list (option string)) : list (option string) :=
  foldl (fun rs c => <[ref_addr c := Some v]> rs) rs cells.

(** The state in which the setup routine, on a client, calls
    [initializeAppCheck]: the ref is allocated and provided, and the
    debug global is written when [options.debug] is truthy. *)
Definition before_initialize (options : VueFireAppCheckOptions) (app : App)
    (w : World) : World :=
  let cell := TokenRefObj (length (refs w)) in
  mkWorld (AppCheckMap w)
          (if truthy (debug options) then debug options
           else FIREBASE_APPCHECK_DEBUG_TOKEN w)
          (<[app := cell]> (provides w))
          (refs w ++ [None])
          (tokenListeners w)
          (trace w ++ EvProvide app cell ::
             (if truthy (debug options)
              then [EvSetDebugGlobal (debug options)] else [])).

(** The state the setup routine, on a client, ends in when
    [initializeAppCheck] returned [appCheck]: the mirror listener is
    subscribed and the client is in the map. *)
Definition after_setup (options : VueFireAppCheckOptions)
    (firebaseApp : FirebaseApp) (app : App) (appCheck : AppCheck)
    (w : World) : World :=
  let w0 := before_initialize options app w in
  let cell := TokenRefObj (length (refs w)) in
  mkWorld (<[firebaseApp := appCheck]> (AppCheckMap w0))
          (FIREBASE_APPCHECK_DEBUG_TOKEN w0) (provides w0) (refs w0)
          (tokenListeners w0 ++ [(appCheck, MirrorInto cell)])
          (trace w0 ++ [EvInitializeAppCheck firebaseApp options (inr appCheck);
                        EvOnTokenChanged appCheck (MirrorInto cell);
                        EvMapSet firebaseApp appCheck]).

(** Every assignment in the trace went to a ref that exists. *)
Definition assignments_allocated (w : World) : Prop :=
  Forall (fun e => match e with
                   | EvAssignToken c _ => ref_addr c < length (refs w)
                   | _ => True
                   end) (trace w).

Definition world_ok (w : World) : Prop :=
  listeners_allocated w /\ assignments_allocated w.

(** [cell] exists and its only writer is one listener of [appCheck]. *)
Definition mirrors (cell : TokenRef) (appCheck : AppCheck) (w : World) : Prop :=
  ref_addr cell < length (refs w) /\
  filter (fun l => cell_of (snd l) = cell) (tokenListeners w)
  = [(appCheck, MirrorInto cell)].

(** ** A sample environment, for the concrete runs *)

Module Sample.

Definition fa0 : FirebaseApp := FirebaseAppObj 0.
Definition fa1 : FirebaseApp := FirebaseAppObj 1.
Definition app0 : App := AppObj 0.

Definition options (d : option DebugOption) : VueFireAppCheckOptions :=
  {| provider := "recaptcha-v3";
     isTokenAutoRefreshEnabled := Some true;
     debug := d |}.

(** The default app is [fa0], the app named "admin" is [fa1], and no
    other app exists. *)
Definition useFirebaseApp (name : option string) : JsError + FirebaseApp :=
  match name with
  | None => inr fa0
  | Some n => if String.eqb n "admin" then inr fa1
              else inl (Error "app/no-app")
  end.

(** An SDK that creates a new client on every call. *)
Definition sdk_initializeAppCheck (w : World) (firebaseApp : FirebaseApp)
    (o : VueFireAppCheckOptions) : JsError + AppCheck :=
  inr (AppCheckObj (length (trace w))).

(** An SDK whose token says whether a refresh was forced. *)
Definition sdk_getToken (w : World) (appCheck : AppCheck)
    (forceRefresh : option bool) : Promise AppCheckTokenResult :=
  match forceRefresh with
  | Some true => Fulfilled {| token := "refreshed" |}
  | _ => Fulfilled {| token := "cached" |}
  end.

(** The setup routine and the histories on a client and on a server. *)
Definition setup (isClient : bool) (d : option DebugOption) : M unit :=
  VueFireAppCheck isClient sdk_initializeAppCheck (options d) fa0 app0.

Definition run_on (isClient : bool) : list Action -> World -> World :=
  run isClient useFirebaseApp sdk_initializeAppCheck sdk_getToken.

End Sample.

(** ** Further definitions for the histories *)

(** Whether the setup routine is called with the Vue app [app]. *)
Definition is_setup_in (app : App) (a : Action) : bool :=
  match a with
  | CallSetup _ _ app' => bool_decide (app' = app)
  | _ => false
  end.

(** The debug global after a history on a client, read off the setup
    calls alone: each call with a truthy [options.debug] assigns it. *)
Definition debug_after (acts : list Action) (g : option DebugOption)
  : option DebugOption :=
  foldl (fun g a =>
           match a with
           | CallSetup options _ _ =>
               if truthy (debug options) then debug options else g
           | _ => g
           end) g acts.

(** Every provided ref exists. *)
Definition provides_allocated (w : World) : Prop :=
  forall app cell,
    provides w !! app = Some cell -> ref_addr cell < length (refs w).

(** A sample SDK that refuses every initialization. *)
Module Failing.

Definition already_initialized : JsError :=
  Error "appCheck/already-initialized".

Definition sdk_initializeAppCheck (w : World) (firebaseApp : FirebaseApp)
    (o : VueFireAppCheckOptions) : JsError + AppCheck :=
  inl already_initialized.

Definition run_on (isClient : bool) : list Action -> World -> World :=
  run isClient Sample.useFirebaseApp sdk_initializeAppCheck
      Sample.sdk_getToken.

End Failing.

(** A sample SDK with one client for each Firebase app: a second
    initialization of an app hands back the client of the first. *)
Module Singleton.

Definition sdk_initializeAppCheck (w : World) (firebaseApp : FirebaseApp)
    (o : VueFireAppCheckOptions) : JsError + AppCheck :=
  inr (AppCheckObj (firebaseApp_id firebaseApp)).

Definition setup (d : option DebugOption) : M unit :=
  VueFireAppCheck true sdk_initializeAppCheck (Sample.options d)
                  Sample.fa0 Sample.app0.

Definition run_on : list Action -> World -> World :=
  run true Sample.useFirebaseApp sdk_initializeAppCheck Sample.sdk_getToken.

End Singleton.

(** * Properties *)

(** Closes [e ∉ [e1; ...; en]] when [e] differs from each [ei] by its
    constructor. *)
Ltac not_among_events :=
  let Hin := fresh "Hin" in
  intros Hin;
  repeat (apply elem_of_cons in Hin as [Hin|Hin]; [discriminate Hin|]);
  by apply elem_of_nil in Hin.

(** ** The monad and the primitives *)

Lemma bind_normal {A B} (m : M A) (k : A -> M B) w a w' :
  m w = (Normal a, w') -> bind m k w = k a w'.
Proof. unfold bind. by intros ->. Qed.

Lemma bind_throw {A B} (m : M A) (k : A -> M B) w e w' :
  m w = (Throw e, w') -> bind m k w = (Throw e, w').
Proof. unfold bind. by intros ->. Qed.

Lemma write_all_length cells v rs :
  length (write_all cells v rs) = length rs.
Proof.
  revert rs. induction cells as [|c cells IH]; intros rs; simpl; [done|].
  by rewrite IH, length_insert.
Qed.

Lemma write_all_snoc cells c v rs :
  write_all (cells ++ [c]) v rs = <[ref_addr c := Some v]> (write_all cells v rs).
Proof. unfold write_all. by rewrite foldl_app. Qed.

(** A ref that is not among the written ones keeps its value. *)
Lemma write_all_other cells v rs cell :
  filter (fun c => c = cell) cells = [] ->
  write_all cells v rs !! ref_addr cell = rs !! ref_addr cell.
Proof.
  revert rs. induction cells as [|c cells IH]; intros rs Hf; simpl; [done|].
  rewrite filter_cons in Hf. destruct (decide (c = cell)) as [->|Hne]; [done|].
  rewrite IH by done. apply list_lookup_insert_ne.
  intros Heq. apply Hne. destruct c, cell; simpl in *; congruence.
Qed.

(** A written ref that exists holds the written value. *)
Lemma write_all_hit cells v rs cell :
  filter (fun c => c = cell) cells <> [] ->
  ref_addr cell < length rs ->
  write_all cells v rs !! ref_addr cell = Some (Some v).
Proof.
  induction cells as [|c cells IH] using rev_ind; intros Hf Hlt; [done|].
  rewrite write_all_snoc. rewrite filter_app, filter_cons, filter_nil in Hf.
  destruct (decide (c = cell)) as [->|Hne].
  - apply list_lookup_insert_eq. by rewrite write_all_length.
  - rewrite list_lookup_insert_ne.
    + apply IH; [|done]. by rewrite app_nil_r in Hf.
    + intros Heq. apply Hne. destruct c, cell; simpl in *; congruence.
Qed.

Lemma assigned_app cell tr1 tr2 :
  assigned cell (tr1 ++ tr2) = assigned cell tr1 ++ assigned cell tr2.
Proof.
  induction tr1 as [|e tr1 IH]; simpl; [done|].
  destruct e; try done. case_decide; simpl; by rewrite IH.
Qed.

Lemma assigned_writes cell v cells :
  assigned cell ((fun c => EvAssignToken c v) <$> cells)
  = (fun _ => v) <$> filter (fun c => c = cell) cells.
Proof.
  induction cells as [|c cells IH]; [done|].
  rewrite fmap_cons, filter_cons. simpl.
  case_decide; [rewrite fmap_cons|]; by rewrite IH.
Qed.

(** What delivering a token change does: every listener of the client
    runs, in order; nothing but the refs and the trace changes. *)
Lemma deliver_spec ls appCheck newToken w :
  deliver ls appCheck newToken w =
  (Normal tt,
   mkWorld (AppCheckMap w) (FIREBASE_APPCHECK_DEBUG_TOKEN w) (provides w)
     (write_all (delivered_to ls appCheck) (token newToken) (refs w))
     (tokenListeners w)
     (trace w ++ ((fun c => EvAssignToken c (token newToken))
                    <$> delivered_to ls appCheck))).
Proof.
  revert w. induction ls as [|[ac cb] ls IH]; intros w.
  - simpl. unfold ret, delivered_to. simpl. rewrite app_nil_r. by destruct w.
  - simpl. unfold delivered_to. rewrite filter_cons. simpl.
    destruct (decide (ac = appCheck)) as [->|Hne].
    + destruct cb as [cell]. simpl. unfold bind, ref_set. simpl.
      rewrite IH. simpl. unfold delivered_to.
      by rewrite <- app_assoc.
    + unfold bind, ret. by rewrite IH.
Qed.

(** ** The module's functions *)

Section Properties.

Variable isClient : bool.
Variable useFirebaseApp : option string -> JsError + FirebaseApp.
Variable sdk_initializeAppCheck :
  World -> FirebaseApp -> VueFireAppCheckOptions -> JsError + AppCheck.
Variable sdk_getToken :
  World -> AppCheck -> option bool -> Promise AppCheckTokenResult.

Local Abbreviation setup := (VueFireAppCheck isClient sdk_initializeAppCheck).
Local Abbreviation history :=
  (run isClient useFirebaseApp sdk_initializeAppCheck sdk_getToken).
Local Abbreviation next :=
  (step isClient useFirebaseApp sdk_initializeAppCheck sdk_getToken).

(** Off the client the routine returns at its first statement. *)
Lemma setup_server options firebaseApp app w :
  VueFireAppCheck false sdk_initializeAppCheck options firebaseApp app w
  = (Normal tt, w).
Proof. done. Qed.

(** On a client the routine runs up to [initializeAppCheck] and
    stops there when the SDK throws. *)
Lemma setup_client options firebaseApp app w :
  VueFireAppCheck true sdk_initializeAppCheck options firebaseApp app w =
  let w0 := before_initialize options app w in
  match sdk_initializeAppCheck w0 firebaseApp options with
  | inl e =>
      (Throw e, log (EvInitializeAppCheck firebaseApp options (inl e)) w0)
  | inr appCheck =>
      (Normal tt, after_setup options firebaseApp app appCheck w)
  end.
Proof.
  unfold VueFireAppCheck, after_setup, before_initialize. simpl.
  unfold bind, ref_new, app_provide, initializeAppCheck. simpl.
  destruct (truthy (debug options)); simpl;
    unfold log; simpl; rewrite <- ?app_assoc; simpl;
    match goal with
    | |- context [sdk_initializeAppCheck ?w0 _ _] =>
        destruct (sdk_initializeAppCheck w0 firebaseApp options)
    end; simpl; unfold AppCheckMap_set, log; simpl;
    rewrite <- ?app_assoc; reflexivity.
Qed.

(** A normal completion on a client means the SDK returned a client. *)
Lemma setup_client_normal options firebaseApp app w :
  isClient = true ->
  fst (setup options firebaseApp app w) = Normal tt ->
  exists appCheck,
    sdk_initializeAppCheck (before_initialize options app w)
      firebaseApp options = inr appCheck /\
    snd (setup options firebaseApp app w)
    = after_setup options firebaseApp app appCheck w.
Proof.
  intros ->. rewrite setup_client. simpl.
  destruct (sdk_initializeAppCheck _ _ _) as [e|ac]; simpl; [done|].
  intros _. by exists ac.
Qed.

Lemma useAppCheck_state name w :
  snd (useAppCheck useFirebaseApp name w) = w.
Proof.
  unfold useAppCheck, bind, lift. by destruct (useFirebaseApp name).
Qed.

(** The accessors change at most the trace. *)
Lemma getAppCheckToken_state name forceRefresh w :
  exists evs,
    snd (getAppCheckToken useFirebaseApp sdk_getToken name forceRefresh w)
    = mkWorld (AppCheckMap w) (FIREBASE_APPCHECK_DEBUG_TOKEN w) (provides w)
              (refs w) (tokenListeners w) (trace w ++ evs) /\
    forall c v, EvAssignToken c v ∉ evs.
Proof.
  unfold getAppCheckToken, useAppCheck, bind, lift, AppCheckMap_get.
  destruct (useFirebaseApp name) as [e|fa].
  - exists []. rewrite app_nil_r. split; [by destruct w|]. intros c v. apply not_elem_of_nil.
  - destruct (AppCheckMap w !! fa) as [ac|].
    + exists [EvGetToken ac forceRefresh]. split; [done|].
      intros c v. not_among_events.
    + exists []. rewrite app_nil_r. split; [by destruct w|]. intros c v. apply not_elem_of_nil.
Qed.

(** ** Histories: the registry *)

(** Only the setup routine of [firebaseApp] changes its entry. *)
Lemma step_AppCheckMap w a firebaseApp :
  is_setup_of firebaseApp a = false ->
  AppCheckMap (next w a) !! firebaseApp = AppCheckMap w !! firebaseApp.
Proof.
  intros Hs. destruct a as [o fa app|name|app|name fr|ac tok]; simpl.
  - simpl in Hs. apply bool_decide_eq_false in Hs.
    destruct isClient.
    + rewrite setup_client. simpl.
      destruct (sdk_initializeAppCheck _ _ _); simpl; [done|].
      by apply lookup_insert_ne.
    + by rewrite setup_server.
  - by rewrite useAppCheck_state.
  - done.
  - destruct (getAppCheckToken_state name fr w) as (evs & -> & _). done.
  - unfold tokenChanged. by rewrite deliver_spec.
Qed.

Lemma run_AppCheckMap later w firebaseApp :
  Forall (fun a => is_setup_of firebaseApp a = false) later ->
  AppCheckMap (history later w) !! firebaseApp = AppCheckMap w !! firebaseApp.
Proof.
  intros Hl. revert w. unfold run.
  induction Hl as [|a later Ha _ IH]; intros w; simpl; [done|].
  rewrite IH. by apply step_AppCheckMap.
Qed.

(** ** Histories: refs stay allocated *)

Lemma world_ok_initial : world_ok initial_world.
Proof. split; constructor. Qed.

Lemma delivered_to_allocated w appCheck :
  listeners_allocated w ->
  Forall (fun c => ref_addr c < length (refs w))
         (delivered_to (tokenListeners w) appCheck).
Proof.
  unfold listeners_allocated, delivered_to.
  induction 1 as [|[ac [c]] ls Hl _ IH]; [constructor|].
  rewrite filter_cons. simpl. case_decide; [|done].
  rewrite fmap_cons. by constructor.
Qed.

Lemma step_world_ok w a : world_ok w -> world_ok (next w a).
Proof.
  intros [Hl Ha].
  destruct a as [o fa app|name|app|name fr|ac tok]; simpl.
  - destruct isClient.
    + rewrite setup_client. simpl.
      assert (Hl' : Forall (fun l => match snd l with
                 | MirrorInto c => ref_addr c < length (refs w ++ [None])
                 end) (tokenListeners w)).
      { eapply Forall_impl; [exact Hl|]. intros [? [c]]; simpl.
        rewrite length_app. simpl. lia. }
      assert (Ha' : Forall (fun e => match e with
                 | EvAssignToken c _ => ref_addr c < length (refs w ++ [None])
                 | _ => True
                 end) (trace w)).
      { eapply Forall_impl; [exact Ha|]. intros []; simpl; try done.
        rewrite length_app. simpl. lia. }
      destruct (sdk_initializeAppCheck _ _ _) as [e|client]; simpl.
      * split; [exact Hl'|].
        unfold assignments_allocated. simpl.
        apply Forall_app. split; [|by repeat constructor].
        apply Forall_app. split; [exact Ha'|].
        destruct (truthy (debug o)); by repeat constructor.
      * split.
        -- unfold listeners_allocated. simpl.
           apply Forall_app. split; [exact Hl'|].
           repeat constructor. simpl. rewrite length_app. simpl. lia.
        -- unfold assignments_allocated. simpl.
           apply Forall_app. split; [|by repeat constructor].
           apply Forall_app. split; [exact Ha'|].
           destruct (truthy (debug o)); by repeat constructor.
    + by rewrite setup_server.
  - by rewrite useAppCheck_state.
  - done.
  - destruct (getAppCheckToken_state name fr w) as (evs & -> & Hevs).
    split; [exact Hl|].
    unfold assignments_allocated. simpl.
    apply Forall_app. split; [exact Ha|].
    apply Forall_forall. intros [] Hin; try done.
    by apply Hevs in Hin.
  - unfold tokenChanged. rewrite deliver_spec. simpl.
    split.
    + unfold listeners_allocated. simpl. by rewrite write_all_length.
    + unfold assignments_allocated. simpl. rewrite write_all_length.
      apply Forall_app. split; [exact Ha|].
      apply Forall_fmap.
      eapply Forall_impl; [by apply delivered_to_allocated|]. done.
Qed.

Lemma run_world_ok acts w : world_ok w -> world_ok (history acts w).
Proof.
  revert w. unfold run.
  induction acts as [|a acts IH]; intros w Hw; simpl; [done|].
  apply IH. by apply step_world_ok.
Qed.

(** ** Histories: the mirrored cell *)

Lemma delivered_to_filter ls appCheck cell :
  filter (fun c => c = cell) (delivered_to ls appCheck)
  = (fun l => cell_of (snd l))
      <$> filter (fun l => fst l = appCheck)
            (filter (fun l => cell_of (snd l) = cell) ls).
Proof.
  unfold delivered_to. induction ls as [|[ac cb] ls IH]; [done|].
  rewrite !filter_cons. simpl.
  destruct (decide (ac = appCheck)) as [->|Hne];
    destruct (decide (cell_of cb = cell)) as [Hc|Hc].
  - rewrite fmap_cons, !filter_cons. simpl.
    rewrite !decide_True by done. rewrite fmap_cons. by rewrite IH.
  - rewrite fmap_cons, filter_cons. simpl.
    by rewrite decide_False by done.
  - rewrite filter_cons. simpl. by rewrite decide_False by done.
  - done.
Qed.

(** The writes a token change of [ac'] makes to a mirrored cell. *)
Lemma delivered_to_mirrored w cell appCheck ac' :
  mirrors cell appCheck w ->
  filter (fun c => c = cell) (delivered_to (tokenListeners w) ac')
  = if decide (ac' = appCheck) then [cell] else [].
Proof.
  intros [_ Hf]. rewrite delivered_to_filter, Hf, filter_cons. simpl.
  destruct (decide (ac' = appCheck)) as [->|Hne].
  - by rewrite decide_True by done.
  - by rewrite decide_False by done.
Qed.

Lemma step_mirrors w a cell appCheck :
  world_ok w -> mirrors cell appCheck w -> mirrors cell appCheck (next w a).
Proof.
  intros [Hl _] [Hlt Hf].
  destruct a as [o fa app|name|app|name fr|ac tok]; simpl.
  - destruct isClient.
    + rewrite setup_client. simpl.
      destruct (sdk_initializeAppCheck _ _ _) as [e|client]; simpl.
      * split; simpl; [|done]. rewrite length_app. simpl. lia.
      * split; simpl; [rewrite length_app; simpl; lia|].
        rewrite filter_app, Hf, filter_cons. simpl.
        rewrite decide_False; [done|].
        intros <-. simpl in Hlt. lia.
    + by rewrite setup_server.
  - by rewrite useAppCheck_state.
  - done.
  - by destruct (getAppCheckToken_state name fr w) as (evs & -> & _).
  - unfold tokenChanged. rewrite deliver_spec.
    split; simpl; [|done]. by rewrite write_all_length.
Qed.

(** A step appends to the assignments of a mirrored cell the token the
    SDK emitted for its client, if the step is such an emission, and
    leaves that token in the cell. *)
Lemma step_cell w a cell appCheck :
  mirrors cell appCheck w ->
  assigned cell (trace (next w a))
  = assigned cell (trace w) ++ tokens_of appCheck [a] /\
  ref_value cell (next w a)
  = match last (tokens_of appCheck [a]) with
    | Some t => Some t
    | None => ref_value cell w
    end.
Proof.
  intros Hm. pose proof Hm as [Hlt Hf].
  destruct a as [o fa app|name|app|name fr|ac tok]; simpl.
  - rewrite app_nil_r. destruct isClient.
    + rewrite setup_client. simpl. unfold ref_value.
      destruct (sdk_initializeAppCheck _ _ _) as [e|client]; simpl;
        rewrite !assigned_app, lookup_app_l by done;
        destruct (truthy (debug o)); simpl; by rewrite ?app_nil_r.
    + by rewrite setup_server.
  - by rewrite app_nil_r, useAppCheck_state.
  - by rewrite app_nil_r.
  - rewrite app_nil_r.
    unfold getAppCheckToken, useAppCheck, bind, lift, AppCheckMap_get, ref_value.
    destruct (useFirebaseApp name) as [e|fa]; [done|].
    destruct (AppCheckMap w !! fa) as [client|]; [|done].
    simpl. by rewrite assigned_app, app_nil_r.
  - unfold tokenChanged, ref_value. rewrite deliver_spec. simpl.
    rewrite assigned_app, assigned_writes.
    rewrite (delivered_to_mirrored _ _ _ _ Hm).
    destruct (decide (ac = appCheck)) as [->|Hne]; simpl.
    + split; [done|].
      rewrite write_all_hit; [done| |done].
      by rewrite (delivered_to_mirrored _ _ _ _ Hm), decide_True.
    + rewrite app_nil_r. split; [done|].
      rewrite write_all_other; [done|].
      by rewrite (delivered_to_mirrored _ _ _ _ Hm), decide_False.
Qed.

Lemma tokens_of_cons appCheck a later :
  tokens_of appCheck (a :: later)
  = tokens_of appCheck [a] ++ tokens_of appCheck later.
Proof. destruct a; simpl; try done. by case_decide. Qed.

(** Over a history, the assignments to a mirrored cell are the tokens
    the SDK emitted for its client, and the cell holds the last one. *)
Lemma run_cell later w cell appCheck :
  world_ok w -> mirrors cell appCheck w ->
  assigned cell (trace (history later w))
  = assigned cell (trace w) ++ tokens_of appCheck later /\
  ref_value cell (history later w)
  = match last (tokens_of appCheck later) with
    | Some t => Some t
    | None => ref_value cell w
    end.
Proof.
  revert w. unfold run.
  induction later as [|a later IH]; intros w Hok Hm.
  - simpl. by rewrite app_nil_r.
  - simpl foldl.
    destruct (IH (next w a)) as [IHa IHv];
      [by apply step_world_ok|by apply step_mirrors|].
    destruct (step_cell w a cell appCheck Hm) as [Ha Hv].
    rewrite (tokens_of_cons _ a later), IHa, IHv, Ha, Hv, <- app_assoc.
    split; [done|].
    rewrite last_app. by destruct (last (tokens_of appCheck later)).
Qed.

(** A ref about to be allocated was never assigned and has no
    listener yet. *)
Lemma fresh_cell_unused w :
  world_ok w ->
  assigned (TokenRefObj (length (refs w))) (trace w) = [] /\
  filter (fun l => cell_of (snd l) = TokenRefObj (length (refs w)))
         (tokenListeners w) = [].
Proof.
  intros [Hl Ha]. split.
  - unfold assignments_allocated in Ha.
    induction Ha as [|e tr He _ IH]; [done|].
    destruct e; simpl; try done.
    rewrite decide_False; [done|]. intros ->. simpl in He. lia.
  - unfold listeners_allocated in Hl.
    induction Hl as [|[ac [c]] ls Hc _ IH]; [done|].
    rewrite filter_cons. simpl in *.
    rewrite decide_False; [done|]. intros ->. simpl in Hc. lia.
Qed.

(** After a setup that completed on a client, the provided cell is
    mirrored from the registered client. *)
Lemma after_setup_mirrors options firebaseApp app appCheck w :
  world_ok w ->
  mirrors (TokenRefObj (length (refs w))) appCheck
          (after_setup options firebaseApp app appCheck w).
Proof.
  intros Hok. destruct (fresh_cell_unused w Hok) as [_ Hf].
  split; simpl.
  - rewrite length_app. simpl. lia.
  - rewrite filter_app, Hf, filter_cons. simpl.
    by rewrite decide_True.
Qed.

Lemma after_setup_assigned options firebaseApp app appCheck w :
  world_ok w ->
  assigned (TokenRefObj (length (refs w)))
           (trace (after_setup options firebaseApp app appCheck w)) = [].
Proof.
  intros Hok. destruct (fresh_cell_unused w Hok) as [Ha _].
  simpl. rewrite !assigned_app, Ha.
  by destruct (truthy (debug options)).
Qed.

(** ** The accessors *)

(** C3. For every handle with no registered client,
    [getAppCheckToken] does not fail: it returns at once a promise
    fulfilled with [{ token: '' }], and it neither calls the SDK nor
    changes anything. *)
Theorem getAppCheckToken_without_client name forceRefresh firebaseApp w :
  useFirebaseApp name = inr firebaseApp ->
  AppCheckMap w !! firebaseApp = None ->
  getAppCheckToken useFirebaseApp sdk_getToken name forceRefresh w
  = (Normal (Fulfilled {| token := "" |}), w).
Proof.
  intros Hn Hm.
  unfold getAppCheckToken, useAppCheck, bind, lift, AppCheckMap_get.
  by rewrite Hn, Hm.
Qed.

(** C5. For every registered client and every [forceRefresh] (a
    boolean, or left out), [getAppCheckToken] calls the SDK's
    [getToken] on that client with that same [forceRefresh], and its
    result is the promise the SDK returned, as it is. *)
Theorem getAppCheckToken_delegates name forceRefresh firebaseApp appCheck w :
  useFirebaseApp name = inr firebaseApp ->
  AppCheckMap w !! firebaseApp = Some appCheck ->
  getAppCheckToken useFirebaseApp sdk_getToken name forceRefresh w
  = (Normal (sdk_getToken w appCheck forceRefresh),
     log (EvGetToken appCheck forceRefresh) w).
Proof.
  intros Hn Hm.
  unfold getAppCheckToken, useAppCheck, bind, lift, AppCheckMap_get.
  by rewrite Hn, Hm.
Qed.

(** C2, as the code has it. For every handle for which the setup
    routine was never run, [useAppCheck] does not throw: it returns
    [undefined] (the [!] of the source is a compile-time assertion
    only) and changes nothing. *)
Theorem useAppCheck_never_setup acts name firebaseApp :
  useFirebaseApp name = inr firebaseApp ->
  Forall (fun a => is_setup_of firebaseApp a = false) acts ->
  useAppCheck useFirebaseApp name (history acts initial_world)
  = (Normal None, history acts initial_world).
Proof.
  intros Hn Hacts.
  unfold useAppCheck, bind, lift, AppCheckMap_get. rewrite Hn.
  by rewrite (run_AppCheckMap _ _ _ Hacts).
Qed.

(** ** The setup routine *)

(** C10. Off the client, the setup routine returns at once and has no
    effect whatever the options: the state it leaves is the state it
    found, so nothing is added to [AppCheckMap], the debug global is
    not written, nothing is provided under the injection symbol, no
    listener is subscribed, and the trace has no new call to the SDK. *)
Theorem setup_off_client_no_effect options firebaseApp app w :
  isClient = false ->
  setup options firebaseApp app w = (Normal tt, w).
Proof. intros ->. apply setup_server. Qed.

(** C9. If [options.debug] is absent or falsy, the setup routine
    leaves [FIREBASE_APPCHECK_DEBUG_TOKEN] as it was and performs no
    assignment to it, on a client or not and whether or not the SDK
    throws: only a truthy [options.debug] writes the global. *)
Theorem setup_falsy_debug_keeps_global options firebaseApp app w :
  truthy (debug options) = false ->
  FIREBASE_APPCHECK_DEBUG_TOKEN (snd (setup options firebaseApp app w))
  = FIREBASE_APPCHECK_DEBUG_TOKEN w /\
  exists evs,
    trace (snd (setup options firebaseApp app w)) = trace w ++ evs /\
    forall v, EvSetDebugGlobal v ∉ evs.
Proof.
  intros Hd. destruct isClient.
  - rewrite setup_client. simpl.
    destruct (sdk_initializeAppCheck _ _ _) as [e|ac]; simpl;
      rewrite Hd; (split; [done|]); rewrite <- app_assoc;
      eexists; (split; [reflexivity|]);
      intros v; simpl; not_among_events.
  - rewrite setup_server. simpl. split; [done|].
    exists []. rewrite app_nil_r. split; [done|].
    intros v. apply not_elem_of_nil.
Qed.

(** C6. On a client, when [options.debug] is truthy, the setup
    routine assigns that very value to [FIREBASE_APPCHECK_DEBUG_TOKEN]
    (the literal string for a string, which is truthy when it is not
    empty; [true] for the boolean, which asks for the generic debug
    mode) and does so before it calls [initializeAppCheck]: the SDK is
    called in a state whose global already holds the value, the
    assignment is the event just before the call, and the global
    still holds the value when the routine ends. *)
Theorem setup_truthy_debug_sets_global_first options firebaseApp app w d :
  isClient = true ->
  debug options = Some d ->
  truthy (Some d) = true ->
  let w0 := before_initialize options app w in
  let res := sdk_initializeAppCheck w0 firebaseApp options in
  FIREBASE_APPCHECK_DEBUG_TOKEN w0 = Some d /\
  FIREBASE_APPCHECK_DEBUG_TOKEN (snd (setup options firebaseApp app w))
  = Some d /\
  exists rest,
    trace (snd (setup options firebaseApp app w))
    = trace w
      ++ [EvProvide app (TokenRefObj (length (refs w)));
          EvSetDebugGlobal (Some d);
          EvInitializeAppCheck firebaseApp options res]
      ++ rest /\
    (forall v, EvSetDebugGlobal v ∉ rest) /\
    (forall fa o r, EvInitializeAppCheck fa o r ∉ rest).
Proof.
  intros -> Hd Ht. rewrite setup_client.
  unfold after_setup, before_initialize. simpl.
  rewrite <- Hd in Ht. rewrite Ht, Hd. split; [done|].
  destruct (sdk_initializeAppCheck _ _ _) as [e|ac]; simpl;
    (split; [done|]); rewrite <- app_assoc; simpl.
  - exists []. split; [done|].
    split; intros; apply not_elem_of_nil.
  - eexists. split; [reflexivity|].
    split; intros; not_among_events.
Qed.

(** C4, as the code has it. Registering for a handle that already
    has a client is not rejected: [AppCheckMap.set] replaces the
    entry. Run again on a client for a registered handle, the setup
    routine completes and the entry is the client
    [initializeAppCheck] returned on this run; it fails only when
    [initializeAppCheck] itself throws, and the old entry then
    stays. *)
Theorem setup_again_replaces_client options firebaseApp app w old :
  isClient = true ->
  AppCheckMap w !! firebaseApp = Some old ->
  match sdk_initializeAppCheck (before_initialize options app w)
          firebaseApp options with
  | inr appCheck =>
      fst (setup options firebaseApp app w) = Normal tt /\
      AppCheckMap (snd (setup options firebaseApp app w)) !! firebaseApp
      = Some appCheck
  | inl e =>
      fst (setup options firebaseApp app w) = Throw e /\
      AppCheckMap (snd (setup options firebaseApp app w)) !! firebaseApp
      = Some old
  end.
Proof.
  intros -> Hold. rewrite setup_client. simpl.
  destruct (sdk_initializeAppCheck _ _ _) as [e|ac]; simpl.
  - done.
  - split; [done|]. apply lookup_insert_eq.
Qed.

(** C8. After the setup routine has completed on a client for a
    handle, and as long as it is not run for that handle again, every
    call of [useAppCheck] that resolves to the handle returns the same
    client, the map holds no other client for the handle, and the call
    leaves the state as it found it. *)
Theorem useAppCheck_stable options firebaseApp app w :
  isClient = true ->
  fst (setup options firebaseApp app w) = Normal tt ->
  exists appCheck,
    forall later name,
      Forall (fun a => is_setup_of firebaseApp a = false) later ->
      useFirebaseApp name = inr firebaseApp ->
      let w' := history later (snd (setup options firebaseApp app w)) in
      useAppCheck useFirebaseApp name w' = (Normal (Some appCheck), w') /\
      forall ac, AppCheckMap w' !! firebaseApp = Some ac -> ac = appCheck.
Proof.
  intros Hc Hn.
  destruct (setup_client_normal _ _ _ _ Hc Hn) as (ac & _ & ->).
  exists ac. intros later name Hl Hname. simpl.
  assert (Hm : AppCheckMap
                 (history later (after_setup options firebaseApp app ac w))
               !! firebaseApp = Some ac).
  { rewrite (run_AppCheckMap _ _ _ Hl). simpl. apply lookup_insert_eq. }
  split.
  - unfold useAppCheck, bind, lift, AppCheckMap_get. by rewrite Hname, Hm.
  - intros ac' Hac'. congruence.
Qed.

(** C7. After the setup routine has completed on a client, whatever
    happens next, the values assigned to the provided cell are the
    tokens the SDK emitted for the registered client, one assignment
    for each emission (equal tokens are assigned again) and in that
    order, and the cell holds the token of the latest emission;
    before the first emission it is unset. *)
Theorem token_cell_holds_latest_token before options firebaseApp app :
  isClient = true ->
  let w := history before initial_world in
  let w1 := snd (setup options firebaseApp app w) in
  fst (setup options firebaseApp app w) = Normal tt ->
  exists cell appCheck,
    fst (useAppCheckToken app w1) = Normal (Some cell) /\
    AppCheckMap w1 !! firebaseApp = Some appCheck /\
    forall later,
      assigned cell (trace (history later w1)) = tokens_of appCheck later /\
      ref_value cell (history later w1) = last (tokens_of appCheck later).
Proof.
  intros Hc w w1 Hn.
  assert (Hok : world_ok w) by apply run_world_ok, world_ok_initial.
  destruct (setup_client_normal _ _ _ _ Hc Hn) as (ac & _ & Hw1).
  fold w1 in Hw1.
  exists (TokenRefObj (length (refs w))), ac.
  split; [|split].
  - rewrite Hw1. simpl. by rewrite lookup_insert_eq.
  - rewrite Hw1. simpl. apply lookup_insert_eq.
  - intros later.
    assert (Hok1 : world_ok w1).
    { unfold w1. apply (step_world_ok w (CallSetup options firebaseApp app) Hok). }
    destruct (run_cell later w1 (TokenRefObj (length (refs w))) ac Hok1)
      as [Ha Hv].
    { rewrite Hw1. by apply after_setup_mirrors. }
    rewrite Ha, Hv, Hw1, after_setup_assigned by done.
    split; [done|].
    destruct (last (tokens_of ac later)); [done|].
    unfold ref_value. simpl.
    by rewrite lookup_app_r, Nat.sub_diag by done.
Qed.

End Properties.

(** * Concrete runs *)

(** The state after the setup routine ran once on a client, with no
    debug option, in the sample environment. *)
Example setup_once :
  snd (Sample.setup true None initial_world)
  = mkWorld {[ Sample.fa0 := AppCheckObj 1 ]} None
            {[ Sample.app0 := TokenRefObj 0 ]} [None]
            [(AppCheckObj 1, MirrorInto (TokenRefObj 0))]
            [EvProvide Sample.app0 (TokenRefObj 0);
             EvInitializeAppCheck Sample.fa0 (Sample.options None)
               (inr (AppCheckObj 1));
             EvOnTokenChanged (AppCheckObj 1) (MirrorInto (TokenRefObj 0));
             EvMapSet Sample.fa0 (AppCheckObj 1)].
Proof. reflexivity. Qed.

(** A first token "abc" is mirrored into the cell; a later "xyz"
    replaces it. *)
Example mirror_abc_then_xyz :
  let setup := CallSetup (Sample.options None) Sample.fa0 Sample.app0 in
  let abc := TokenChanged (AppCheckObj 1) {| token := "abc" |} in
  let xyz := TokenChanged (AppCheckObj 1) {| token := "xyz" |} in
  ref_value (TokenRefObj 0) (Sample.run_on true [setup] initial_world) = None /\
  ref_value (TokenRefObj 0) (Sample.run_on true [setup; abc] initial_world)
  = Some "abc" /\
  ref_value (TokenRefObj 0) (Sample.run_on true [setup; abc; xyz] initial_world)
  = Some "xyz".
Proof. repeat split. Qed.

(** The empty string is a falsy debug option. *)
Example truthy_empty_string : truthy (Some (DebugString "")) = false.
Proof. reflexivity. Qed.

(** C1, at the input where the code departs from it. With [isClient]
    false the routine returns before the ref is made and provided: no
    [onTokenChanged] subscription is started, but [useAppCheckToken]
    finds nothing under the injection symbol, where the claim (and the
    source's comment on the [provide] call) has a cell that stays
    unset. *)
Theorem setup_on_server_provides_no_cell :
  let w := snd (Sample.setup false (Some (DebugString "my-token"))
                  initial_world) in
  tokenListeners w = [] /\
  useAppCheckToken Sample.app0 w = (Normal None, w).
Proof. split; reflexivity. Qed.

(** C2 fails on the code: the default app exists, the setup routine
    never ran, and [useAppCheck] returns [undefined] instead of
    throwing. *)
Lemma useAppCheck_unregistered_no_throw :
  Sample.useFirebaseApp None = inr Sample.fa0 /\
  AppCheckMap initial_world !! Sample.fa0 = None /\
  useAppCheck Sample.useFirebaseApp None initial_world
  = (Normal None, initial_world) /\
  ~ (exists e,
       fst (useAppCheck Sample.useFirebaseApp None initial_world) = Throw e).
Proof.
  repeat split. intros [e He]. discriminate He.
Qed.

(** C4 fails on the code: run a second time for the same handle, the
    setup routine is not rejected, and the map entry is replaced by the
    second client. *)
Lemma setup_twice_not_rejected :
  let w1 := snd (Sample.setup true None initial_world) in
  let w2 := snd (Sample.setup true None w1) in
  AppCheckMap w1 !! Sample.fa0 = Some (AppCheckObj 1) /\
  fst (Sample.setup true None w1) = Normal tt /\
  ~ (exists e, fst (Sample.setup true None w1) = Throw e) /\
  AppCheckMap w2 !! Sample.fa0 = Some (AppCheckObj 5) /\
  AppCheckMap w2 !! Sample.fa0 <> AppCheckMap w1 !! Sample.fa0.
Proof.
  repeat split.
  - intros [e He]. discriminate He.
  - discriminate.
Qed.

(** * The theorems at concrete inputs *)

(** No setup ran: the token of the default app is the empty one. *)
Lemma getAppCheckToken_without_client_witness :
  Sample.useFirebaseApp None = inr Sample.fa0 /\
  AppCheckMap initial_world !! Sample.fa0 = None /\
  getAppCheckToken Sample.useFirebaseApp Sample.sdk_getToken None (Some true)
    initial_world
  = (Normal (Fulfilled {| token := "" |}), initial_world).
Proof.
  split; [reflexivity|]. split; [reflexivity|].
  apply (getAppCheckToken_without_client Sample.useFirebaseApp
           Sample.sdk_getToken None (Some true) Sample.fa0 initial_world);
    reflexivity.
Defined.

(** After a setup, a forced refresh reaches the SDK as such. *)
Lemma getAppCheckToken_delegates_witness :
  let w := snd (Sample.setup true None initial_world) in
  Sample.useFirebaseApp None = inr Sample.fa0 /\
  AppCheckMap w !! Sample.fa0 = Some (AppCheckObj 1) /\
  getAppCheckToken Sample.useFirebaseApp Sample.sdk_getToken None (Some true) w
  = (Normal (Fulfilled {| token := "refreshed" |}),
     log (EvGetToken (AppCheckObj 1) (Some true)) w).
Proof.
  split; [reflexivity|]. split; [reflexivity|].
  apply (getAppCheckToken_delegates Sample.useFirebaseApp Sample.sdk_getToken
           None (Some true) Sample.fa0 (AppCheckObj 1)
           (snd (Sample.setup true None initial_world)));
    reflexivity.
Defined.

(** Setting up the app named "admin" does not register the default
    app. *)
Lemma useAppCheck_never_setup_witness :
  let acts := [CallSetup (Sample.options None) Sample.fa1 Sample.app0;
               TokenChanged (AppCheckObj 1) {| token := "abc" |};
               CallGetAppCheckToken None None] in
  Sample.useFirebaseApp None = inr Sample.fa0 /\
  Forall (fun a => is_setup_of Sample.fa0 a = false) acts /\
  useAppCheck Sample.useFirebaseApp None (Sample.run_on true acts initial_world)
  = (Normal None, Sample.run_on true acts initial_world).
Proof.
  split; [reflexivity|]. split; [by repeat constructor|].
  apply (useAppCheck_never_setup true Sample.useFirebaseApp
           Sample.sdk_initializeAppCheck Sample.sdk_getToken
           [CallSetup (Sample.options None) Sample.fa1 Sample.app0;
            TokenChanged (AppCheckObj 1) {| token := "abc" |};
            CallGetAppCheckToken None None] None Sample.fa0);
    [reflexivity|by repeat constructor].
Defined.

Lemma setup_off_client_no_effect_witness :
  Sample.setup false (Some (DebugString "my-token")) initial_world
  = (Normal tt, initial_world).
Proof.
  apply (setup_off_client_no_effect false Sample.sdk_initializeAppCheck
           (Sample.options (Some (DebugString "my-token"))) Sample.fa0
           Sample.app0 initial_world).
  reflexivity.
Defined.

(** [debug: ''] on a client: the global stays unset. *)
Lemma setup_falsy_debug_keeps_global_witness :
  truthy (debug (Sample.options (Some (DebugString "")))) = false /\
  FIREBASE_APPCHECK_DEBUG_TOKEN
    (snd (Sample.setup true (Some (DebugString "")) initial_world)) = None.
Proof.
  split; [reflexivity|].
  apply (setup_falsy_debug_keeps_global true Sample.sdk_initializeAppCheck
           (Sample.options (Some (DebugString ""))) Sample.fa0 Sample.app0
           initial_world).
  reflexivity.
Defined.

(** [debug: 'my-token'] on a client: the global is "my-token" when the
    SDK is called. *)
Lemma setup_truthy_debug_sets_global_first_witness :
  let options := Sample.options (Some (DebugString "my-token")) in
  truthy (Some (DebugString "my-token")) = true /\
  FIREBASE_APPCHECK_DEBUG_TOKEN
    (before_initialize options Sample.app0 initial_world)
  = Some (DebugString "my-token") /\
  FIREBASE_APPCHECK_DEBUG_TOKEN
    (snd (Sample.setup true (Some (DebugString "my-token")) initial_world))
  = Some (DebugString "my-token").
Proof.
  split; [reflexivity|].
  pose proof (setup_truthy_debug_sets_global_first true
                Sample.sdk_initializeAppCheck
                (Sample.options (Some (DebugString "my-token")))
                Sample.fa0 Sample.app0 initial_world
                (DebugString "my-token") eq_refl eq_refl eq_refl)
    as (H0 & H1 & _).
  split; [exact H0|exact H1].
Defined.

Lemma setup_again_replaces_client_witness :
  let w1 := snd (Sample.setup true None initial_world) in
  AppCheckMap w1 !! Sample.fa0 = Some (AppCheckObj 1) /\
  fst (Sample.setup true None w1) = Normal tt /\
  AppCheckMap (snd (Sample.setup true None w1)) !! Sample.fa0
  = Some (AppCheckObj 5).
Proof.
  split; [reflexivity|].
  exact (setup_again_replaces_client true Sample.sdk_initializeAppCheck
           (Sample.options None) Sample.fa0 Sample.app0
           (snd (Sample.setup true None initial_world)) (AppCheckObj 1)
           eq_refl eq_refl).
Defined.

Lemma useAppCheck_stable_witness :
  fst (Sample.setup true None initial_world) = Normal tt /\
  exists appCheck,
    forall later name,
      Forall (fun a => is_setup_of Sample.fa0 a = false) later ->
      Sample.useFirebaseApp name = inr Sample.fa0 ->
      let w' := Sample.run_on true later
                  (snd (Sample.setup true None initial_world)) in
      useAppCheck Sample.useFirebaseApp name w' = (Normal (Some appCheck), w') /\
      forall ac, AppCheckMap w' !! Sample.fa0 = Some ac -> ac = appCheck.
Proof.
  split; [reflexivity|].
  apply (useAppCheck_stable true Sample.useFirebaseApp
           Sample.sdk_initializeAppCheck Sample.sdk_getToken
           (Sample.options None) Sample.fa0 Sample.app0 initial_world);
    reflexivity.
Defined.

Lemma token_cell_holds_latest_token_witness :
  let w1 := snd (Sample.setup true None initial_world) in
  fst (Sample.setup true None initial_world) = Normal tt /\
  exists cell appCheck,
    fst (useAppCheckToken Sample.app0 w1) = Normal (Some cell) /\
    AppCheckMap w1 !! Sample.fa0 = Some appCheck /\
    forall later,
      assigned cell (trace (Sample.run_on true later w1))
      = tokens_of appCheck later /\
      ref_value cell (Sample.run_on true later w1)
      = last (tokens_of appCheck later).
Proof.
  split; [reflexivity|].
  apply (token_cell_holds_latest_token true Sample.useFirebaseApp
           Sample.sdk_initializeAppCheck Sample.sdk_getToken
           [] (Sample.options None) Sample.fa0 Sample.app0);
    reflexivity.
Defined.

(** * Further properties of the module *)

Section MoreProperties.

Variable isClient : bool.
Variable useFirebaseApp : option string -> JsError + FirebaseApp.
Variable sdk_initializeAppCheck :
  World -> FirebaseApp -> VueFireAppCheckOptions -> JsError + AppCheck.
Variable sdk_getToken :
  World -> AppCheck -> option bool -> Promise AppCheckTokenResult.

Local Abbreviation setup := (VueFireAppCheck isClient sdk_initializeAppCheck).
Local Abbreviation history :=
  (run isClient useFirebaseApp sdk_initializeAppCheck sdk_getToken).
Local Abbreviation next :=
  (step isClient useFirebaseApp sdk_initializeAppCheck sdk_getToken).

(** ** The setup routine when the SDK throws *)

(** X1. On a client, when [initializeAppCheck] throws, the setup
    routine throws the same error after the first half of its work: a
    new, unset ref is already provided to the app and a truthy
    [options.debug] is already in the global, but no listener is
    subscribed and [AppCheckMap] is as it was. *)
Theorem setup_sdk_throws options firebaseApp app w e :
  isClient = true ->
  sdk_initializeAppCheck (before_initialize options app w) firebaseApp options
  = inl e ->
  let w' := snd (setup options firebaseApp app w) in
  let cell := TokenRefObj (length (refs w)) in
  fst (setup options firebaseApp app w) = Throw e /\
  AppCheckMap w' = AppCheckMap w /\
  tokenListeners w' = tokenListeners w /\
  provides w' !! app = Some cell /\
  ref_value cell w' = None /\
  FIREBASE_APPCHECK_DEBUG_TOKEN w'
  = (if truthy (debug options) then debug options
     else FIREBASE_APPCHECK_DEBUG_TOKEN w).
Proof.
  intros -> He. simpl. rewrite setup_client. simpl. rewrite He. simpl.
  repeat split.
  - apply lookup_insert_eq.
  - unfold ref_value. simpl.
    by rewrite lookup_app_r, Nat.sub_diag by done.
Qed.


(** X3. The setup routine for one Firebase app and one Vue app leaves
    the rest alone, whatever the environment and whatever the SDK does:
    the clients of other Firebase apps, the refs provided to other Vue
    apps, and the value of every ref that existed before. *)
Theorem setup_frame options firebaseApp app w :
  let w' := snd (setup options firebaseApp app w) in
  (forall fa, fa <> firebaseApp ->
     AppCheckMap w' !! fa = AppCheckMap w !! fa) /\
  (forall app', app' <> app -> provides w' !! app' = provides w !! app') /\
  (forall cell, ref_addr cell < length (refs w) ->
     ref_value cell w' = ref_value cell w).
Proof.
  simpl. destruct isClient.
  - rewrite setup_client. simpl.
    destruct (sdk_initializeAppCheck _ _ _) as [e|ac]; simpl;
      (split; [|split]).
    + done.
    + intros app' Hne. by apply lookup_insert_ne.
    + intros cell Hlt. unfold ref_value. simpl. by rewrite lookup_app_l.
    + intros fa Hne. by apply lookup_insert_ne.
    + intros app' Hne. by apply lookup_insert_ne.
    + intros cell Hlt. unfold ref_value. simpl. by rewrite lookup_app_l.
  - by rewrite setup_server.
Qed.

(** ** The accessors when the app cannot be resolved *)

(** X4. [getAppCheckToken] throws exactly when [useFirebaseApp] throws,
    with that error, and it then leaves the state untouched: the throw
    is synchronous and comes before any call to the SDK. The
    empty-token fallback is for a missing client only, not for a
    missing app. *)
Theorem getAppCheckToken_throws_iff name forceRefresh w e :
  (fst (getAppCheckToken useFirebaseApp sdk_getToken name forceRefresh w)
   = Throw e
   <-> useFirebaseApp name = inl e) /\
  (useFirebaseApp name = inl e ->
   getAppCheckToken useFirebaseApp sdk_getToken name forceRefresh w
   = (Throw e, w)).
Proof.
  unfold getAppCheckToken, useAppCheck, bind, lift, AppCheckMap_get.
  destruct (useFirebaseApp name) as [e'|fa]; simpl.
  - split; [split|]; intros [= ->]; done.
  - destruct (AppCheckMap w !! fa); simpl; (split; [split|]); discriminate.
Qed.

(** ** Off the client *)

(** A step off the client, with no client and no listener, changes
    nothing. *)
Lemma step_off_client w a :
  isClient = false ->
  AppCheckMap w = ∅ -> tokenListeners w = [] ->
  next w a = w.
Proof.
  intros -> Hm Hl. destruct a as [o fa app|name|app|name fr|ac tok]; simpl.
  - done.
  - by rewrite useAppCheck_state.
  - done.
  - unfold getAppCheckToken, useAppCheck, bind, lift, AppCheckMap_get.
    destruct (useFirebaseApp name) as [e|fa]; [done|].
    by rewrite Hm, lookup_empty.
  - unfold tokenChanged. by rewrite Hl.
Qed.

(** X5. Off the client the module is inert over whole histories: from
    a state with no client and no listener, any sequence of setup
    calls, accessor calls and token changes leaves the state exactly as
    it was, so no client is ever registered, no ref is ever provided
    and the SDK is never called. *)
Theorem off_client_inert acts w :
  isClient = false ->
  AppCheckMap w = ∅ -> tokenListeners w = [] ->
  run isClient useFirebaseApp sdk_initializeAppCheck sdk_getToken acts w = w.
Proof.
  intros Hc Hm Hl. unfold run.
  induction acts as [|a acts IH]; simpl; [done|].
  by rewrite (step_off_client w a Hc Hm Hl).
Qed.

(** ** What a history never undoes *)

Lemma step_registered w a firebaseApp :
  is_Some (AppCheckMap w !! firebaseApp) ->
  is_Some (AppCheckMap (next w a) !! firebaseApp).
Proof.
  intros Hs. destruct (is_setup_of firebaseApp a) eqn:Ha.
  - destruct a as [o fa app| | | |]; try discriminate Ha.
    simpl in Ha. apply bool_decide_eq_true in Ha as ->. simpl.
    destruct isClient.
    + rewrite setup_client. simpl.
      destruct (sdk_initializeAppCheck _ _ _) as [e|ac]; simpl; [done|].
      rewrite lookup_insert_eq. by eexists.
    + by rewrite setup_server.
  - by rewrite (step_AppCheckMap isClient useFirebaseApp
                  sdk_initializeAppCheck sdk_getToken w a firebaseApp Ha).
Qed.

(** X6. A registered handle stays registered: no history, with any
    number of further setup calls, failed or not, removes an entry of
    [AppCheckMap] (a later setup for the handle may replace the
    client, never drop it). *)
Theorem registered_stays_registered acts w firebaseApp :
  is_Some (AppCheckMap w !! firebaseApp) ->
  is_Some
    (AppCheckMap (run isClient useFirebaseApp sdk_initializeAppCheck sdk_getToken acts w)
     !! firebaseApp).
Proof.
  revert w. unfold run.
  induction acts as [|a acts IH]; intros w Hs; simpl; [done|].
  apply IH. by apply step_registered.
Qed.

Lemma step_listeners w a :
  tokenListeners w `prefix_of` tokenListeners (next w a).
Proof.
  destruct a as [o fa app|name|app|name fr|ac tok]; simpl.
  - destruct isClient.
    + rewrite setup_client. simpl.
      destruct (sdk_initializeAppCheck _ _ _) as [e|ac]; simpl; [done|].
      by apply prefix_app_r.
    + by rewrite setup_server.
  - by rewrite useAppCheck_state.
  - done.
  - by destruct (getAppCheckToken_state useFirebaseApp sdk_getToken name fr w)
      as (evs & -> & _).
  - unfold tokenChanged. by rewrite deliver_spec.
Qed.

(** X7. A subscribed listener is never removed: over any history the
    listener list only grows at its end, so every ref that mirrors a
    client keeps being written for as long as that client emits. *)
Theorem listeners_never_removed acts w :
  tokenListeners w
  `prefix_of`
  tokenListeners (run isClient useFirebaseApp sdk_initializeAppCheck sdk_getToken acts w).
Proof.
  revert w. unfold run.
  induction acts as [|a acts IH]; intros w; simpl; [done|].
  etrans; [apply step_listeners|apply IH].
Qed.

(** ** The debug global over a history *)

Lemma step_debug w a :
  FIREBASE_APPCHECK_DEBUG_TOKEN (next w a)
  = if isClient then debug_after [a] (FIREBASE_APPCHECK_DEBUG_TOKEN w)
    else FIREBASE_APPCHECK_DEBUG_TOKEN w.
Proof.
  destruct a as [o fa app|name|app|name fr|ac tok]; simpl.
  - destruct isClient.
    + rewrite setup_client. simpl.
      by destruct (sdk_initializeAppCheck _ _ _).
    + by rewrite setup_server.
  - rewrite useAppCheck_state. by destruct isClient.
  - by destruct isClient.
  - destruct (getAppCheckToken_state useFirebaseApp sdk_getToken name fr w)
      as (evs & -> & _). by destruct isClient.
  - unfold tokenChanged. rewrite deliver_spec. by destruct isClient.
Qed.

(** X8. On a client, the debug global after a history is decided by
    the setup calls alone: it is the [options.debug] of the latest
    setup call whose [options.debug] was truthy, and the value it had
    at the start when there was none. Neither a failing
    [initializeAppCheck] nor any accessor or token change has a say. *)
Theorem debug_global_last_truthy_wins acts w :
  isClient = true ->
  FIREBASE_APPCHECK_DEBUG_TOKEN (history acts w)
  = debug_after acts (FIREBASE_APPCHECK_DEBUG_TOKEN w).
Proof.
  intros Hc. revert w. unfold run, debug_after.
  induction acts as [|a acts IH]; intros w; [done|].
  simpl foldl. rewrite IH, step_debug, Hc. done.
Qed.

(** X9. Debug mode is never switched off: once the debug global holds
    a truthy value, it holds a truthy value after every history, in
    every environment; a later [debug: false] does not reset it. *)
Theorem debug_never_switched_off acts w :
  truthy (FIREBASE_APPCHECK_DEBUG_TOKEN w) = true ->
  truthy (FIREBASE_APPCHECK_DEBUG_TOKEN (history acts w)) = true.
Proof.
  revert w. unfold run.
  induction acts as [|a acts IH]; intros w Ht; simpl; [done|].
  apply IH. rewrite step_debug. destruct isClient; [|done].
  destruct a as [o fa app| | | |]; simpl; try done.
  by destruct (truthy (debug o)) eqn:Ho.
Qed.

(** ** The provided ref *)

(** Only the setup routine called with [app] changes what is provided
    to [app]. *)
Lemma step_provides w a app :
  is_setup_in app a = false ->
  provides (next w a) !! app = provides w !! app.
Proof.
  intros Hs. destruct a as [o fa app'|name|app'|name fr|ac tok]; simpl.
  - simpl in Hs. apply bool_decide_eq_false in Hs.
    destruct isClient.
    + rewrite setup_client. simpl.
      destruct (sdk_initializeAppCheck _ _ _); simpl;
        by apply lookup_insert_ne.
    + by rewrite setup_server.
  - by rewrite useAppCheck_state.
  - done.
  - by destruct (getAppCheckToken_state useFirebaseApp sdk_getToken name fr w)
      as (evs & -> & _).
  - unfold tokenChanged. by rewrite deliver_spec.
Qed.

Lemma run_provides later w app :
  Forall (fun a => is_setup_in app a = false) later ->
  provides (history later w) !! app = provides w !! app.
Proof.
  intros Hl. revert w. unfold run.
  induction Hl as [|a later Ha _ IH]; intros w; simpl; [done|].
  rewrite IH. by apply step_provides.
Qed.

(** X10. For every Vue app the setup routine was never called with,
    [useAppCheckToken] returns [undefined], not a ref: the [!] of the
    source does not throw, and nothing else provides the ref. *)
Theorem useAppCheckToken_never_setup acts app :
  Forall (fun a => is_setup_in app a = false) acts ->
  useAppCheckToken app (history acts initial_world)
  = (Normal None, history acts initial_world).
Proof.
  intros Hacts. unfold useAppCheckToken, app_inject.
  by rewrite (run_provides _ _ _ Hacts).
Qed.

(** X11. On a client, once the setup routine has been called with a Vue
    app, whether [initializeAppCheck] then succeeded or threw,
    [useAppCheckToken] returns the ref made by that call, the same one
    on every later call, until the setup routine is called with that
    app again; the accessor itself changes nothing. *)
Theorem useAppCheckToken_stable options firebaseApp app w later :
  isClient = true ->
  Forall (fun a => is_setup_in app a = false) later ->
  let w' := history later (snd (setup options firebaseApp app w)) in
  useAppCheckToken app w'
  = (Normal (Some (TokenRefObj (length (refs w)))), w').
Proof.
  intros Hc Hl. simpl. unfold useAppCheckToken, app_inject.
  rewrite (run_provides _ _ _ Hl). subst isClient.
  rewrite setup_client. simpl.
  destruct (sdk_initializeAppCheck _ _ _); simpl;
    by rewrite lookup_insert_eq.
Qed.

Lemma provides_allocated_initial : provides_allocated initial_world.
Proof. intros app cell. simpl. by rewrite lookup_empty. Qed.

Lemma step_provides_allocated w a :
  provides_allocated w -> provides_allocated (next w a).
Proof.
  intros Hp. destruct a as [o fa app|name|app|name fr|ac tok]; simpl.
  - destruct isClient.
    + rewrite setup_client. simpl.
      assert (Hnew : forall app' cell,
                 <[app := TokenRefObj (length (refs w))]> (provides w) !! app'
                 = Some cell ->
                 ref_addr cell < length (refs w ++ [None])).
      { intros app' cell. rewrite length_app. simpl.
        destruct (decide (app = app')) as [->|Hne].
        - rewrite lookup_insert_eq. intros [= <-]. simpl. lia.
        - rewrite lookup_insert_ne by done. intros Hc.
          apply Hp in Hc. lia. }
      destruct (sdk_initializeAppCheck _ _ _); simpl; exact Hnew.
    + by rewrite setup_server.
  - by rewrite useAppCheck_state.
  - done.
  - by destruct (getAppCheckToken_state useFirebaseApp sdk_getToken name fr w)
      as (evs & -> & _).
  - unfold tokenChanged. rewrite deliver_spec.
    intros app cell. simpl. rewrite write_all_length. apply Hp.
Qed.

Lemma run_provides_allocated acts w :
  provides_allocated w -> provides_allocated (history acts w).
Proof.
  revert w. unfold run.
  induction acts as [|a acts IH]; intros w Hp; simpl; [done|].
  apply IH. by apply step_provides_allocated.
Qed.

(** X12. On a client, calling the setup routine again with a Vue app
    that already has a ref gives the app a new ref, different from the
    old one and unset, whatever token the old one holds; the old ref
    keeps its value. A consumer that injects after the second call
    sees no token until the next emission. *)
Theorem setup_again_provides_fresh_ref before options firebaseApp app old :
  isClient = true ->
  let w := history before initial_world in
  let w' := snd (setup options firebaseApp app w) in
  provides w !! app = Some old ->
  exists cell,
    provides w' !! app = Some cell /\
    cell <> old /\
    ref_value cell w' = None /\
    ref_value old w' = ref_value old w.
Proof.
  intros Hc w w' Hold.
  assert (Hlt : ref_addr old < length (refs w)).
  { eapply (run_provides_allocated before initial_world);
      [apply provides_allocated_initial|exact Hold]. }
  exists (TokenRefObj (length (refs w))). unfold w'.
  clearbody w. subst isClient.
  rewrite setup_client. simpl.
  destruct (sdk_initializeAppCheck _ _ _); simpl;
    (split; [apply lookup_insert_eq|]);
    (split; [intros <-; simpl in Hlt; lia|]);
    unfold ref_value; simpl;
    (split; [by rewrite lookup_app_r, Nat.sub_diag by done
            |by rewrite lookup_app_l by done]).
Qed.

(** ** Setup, then the token *)

(** X13. After the setup routine has completed on a client for a
    handle, and as long as it is not run for that handle again,
    [getAppCheckToken] for a name that resolves to the handle never
    takes the empty-token fallback: it always calls the SDK's
    [getToken], on the client registered by that setup, with the given
    [forceRefresh], and returns the SDK's promise. *)
Theorem getAppCheckToken_after_setup options firebaseApp app w :
  isClient = true ->
  fst (setup options firebaseApp app w) = Normal tt ->
  exists appCheck,
    AppCheckMap (snd (setup options firebaseApp app w)) !! firebaseApp
    = Some appCheck /\
    forall later name forceRefresh,
      Forall (fun a => is_setup_of firebaseApp a = false) later ->
      useFirebaseApp name = inr firebaseApp ->
      let w' := history later (snd (setup options firebaseApp app w)) in
      getAppCheckToken useFirebaseApp sdk_getToken name forceRefresh w'
      = (Normal (sdk_getToken w' appCheck forceRefresh),
         log (EvGetToken appCheck forceRefresh) w').
Proof.
  intros Hc Hn.
  destruct (setup_client_normal isClient sdk_initializeAppCheck
              _ _ _ _ Hc Hn) as (ac & _ & ->).
  exists ac. split; [simpl; apply lookup_insert_eq|].
  intros later name fr Hl Hname. simpl.
  unfold getAppCheckToken, useAppCheck, bind, lift, AppCheckMap_get.
  rewrite Hname.
  rewrite (run_AppCheckMap isClient useFirebaseApp sdk_initializeAppCheck
             sdk_getToken _ _ _ Hl).
  simpl. by rewrite lookup_insert_eq.
Qed.

(** ** Two refs on one client *)


End MoreProperties.

(** * The further properties at concrete inputs *)

(** The SDK refuses: the routine throws, the ref is provided all the
    same and "my-token" is in the global. *)
Lemma setup_sdk_throws_witness :
  let options := Sample.options (Some (DebugString "my-token")) in
  let r := VueFireAppCheck true Failing.sdk_initializeAppCheck options
             Sample.fa0 Sample.app0 initial_world in
  fst r = Throw Failing.already_initialized /\
  AppCheckMap (snd r) = ∅ /\
  tokenListeners (snd r) = [] /\
  provides (snd r) !! Sample.app0 = Some (TokenRefObj 0) /\
  ref_value (TokenRefObj 0) (snd r) = None /\
  FIREBASE_APPCHECK_DEBUG_TOKEN (snd r) = Some (DebugString "my-token").
Proof.
  exact (setup_sdk_throws true Failing.sdk_initializeAppCheck
           (Sample.options (Some (DebugString "my-token")))
           Sample.fa0 Sample.app0 initial_world Failing.already_initialized
           eq_refl eq_refl).
Defined.


(** Off the client, setup calls, token requests and emissions leave
    the initial state as it is. *)
Lemma off_client_inert_witness :
  Sample.run_on false
    [CallSetup (Sample.options (Some (DebugBool true))) Sample.fa0 Sample.app0;
     TokenChanged (AppCheckObj 1) {| token := "abc" |};
     CallGetAppCheckToken None (Some true);
     CallUseAppCheckToken Sample.app0]
    initial_world
  = initial_world.
Proof.
  apply (off_client_inert false Sample.useFirebaseApp
           Sample.sdk_initializeAppCheck Sample.sdk_getToken);
    reflexivity.
Defined.

(** A second setup that the SDK refuses does not drop the entry of the
    first. *)
Lemma registered_stays_registered_witness :
  let w1 := snd (Sample.setup true None initial_world) in
  is_Some (AppCheckMap w1 !! Sample.fa0) /\
  is_Some (AppCheckMap
             (Failing.run_on true
                [CallSetup (Sample.options None) Sample.fa0 Sample.app0;
                 CallGetAppCheckToken None None] w1)
           !! Sample.fa0).
Proof.
  split; [by eexists|].
  apply (registered_stays_registered true Sample.useFirebaseApp
           Failing.sdk_initializeAppCheck Sample.sdk_getToken).
  by eexists.
Defined.

(** [debug: 'a'], then [debug: false], then [debug: 'b'], then no
    debug option: the global ends as 'b'. *)
Lemma debug_global_last_truthy_wins_witness :
  let acts :=
    [CallSetup (Sample.options (Some (DebugString "a"))) Sample.fa0 Sample.app0;
     CallSetup (Sample.options (Some (DebugBool false))) Sample.fa0 Sample.app0;
     CallSetup (Sample.options (Some (DebugString "b"))) Sample.fa1 Sample.app0;
     CallSetup (Sample.options None) Sample.fa0 Sample.app0] in
  debug_after acts None = Some (DebugString "b") /\
  FIREBASE_APPCHECK_DEBUG_TOKEN (Sample.run_on true acts initial_world)
  = Some (DebugString "b").
Proof.
  split; [reflexivity|].
  apply (debug_global_last_truthy_wins true Sample.useFirebaseApp
           Sample.sdk_initializeAppCheck Sample.sdk_getToken
           [CallSetup (Sample.options (Some (DebugString "a")))
              Sample.fa0 Sample.app0;
            CallSetup (Sample.options (Some (DebugBool false)))
              Sample.fa0 Sample.app0;
            CallSetup (Sample.options (Some (DebugString "b")))
              Sample.fa1 Sample.app0;
            CallSetup (Sample.options None) Sample.fa0 Sample.app0]
           initial_world).
  reflexivity.
Defined.

(** After [debug: true], a setup with [debug: false] leaves debug mode
    on. *)
Lemma debug_never_switched_off_witness :
  let w1 := snd (Sample.setup true (Some (DebugBool true)) initial_world) in
  truthy (FIREBASE_APPCHECK_DEBUG_TOKEN w1) = true /\
  truthy (FIREBASE_APPCHECK_DEBUG_TOKEN
            (Sample.run_on true
               [CallSetup (Sample.options (Some (DebugBool false)))
                  Sample.fa0 Sample.app0] w1)) = true.
Proof.
  split; [reflexivity|].
  apply (debug_never_switched_off true Sample.useFirebaseApp
           Sample.sdk_initializeAppCheck Sample.sdk_getToken).
  reflexivity.
Defined.

(** A setup with another Vue app provides nothing to [app0]. *)
Lemma useAppCheckToken_never_setup_witness :
  let acts := [CallSetup (Sample.options None) Sample.fa0 (AppObj 1);
               TokenChanged (AppCheckObj 1) {| token := "abc" |}] in
  Forall (fun a => is_setup_in Sample.app0 a = false) acts /\
  useAppCheckToken Sample.app0 (Sample.run_on true acts initial_world)
  = (Normal None, Sample.run_on true acts initial_world).
Proof.
  split; [by repeat constructor|].
  apply (useAppCheckToken_never_setup true Sample.useFirebaseApp
           Sample.sdk_initializeAppCheck Sample.sdk_getToken
           [CallSetup (Sample.options None) Sample.fa0 (AppObj 1);
            TokenChanged (AppCheckObj 1) {| token := "abc" |}]
           Sample.app0).
  by repeat constructor.
Defined.

(** The ref stays provided when the SDK refused the initialization. *)
Lemma useAppCheckToken_stable_witness :
  let later := [TokenChanged (AppCheckObj 1) {| token := "abc" |};
                CallGetAppCheckToken None None] in
  let w' := Failing.run_on true later
              (snd (VueFireAppCheck true Failing.sdk_initializeAppCheck
                      (Sample.options None) Sample.fa0 Sample.app0
                      initial_world)) in
  Forall (fun a => is_setup_in Sample.app0 a = false) later /\
  useAppCheckToken Sample.app0 w' = (Normal (Some (TokenRefObj 0)), w').
Proof.
  split; [by repeat constructor|].
  apply (useAppCheckToken_stable true Sample.useFirebaseApp
           Failing.sdk_initializeAppCheck Sample.sdk_getToken
           (Sample.options None) Sample.fa0 Sample.app0 initial_world
           [TokenChanged (AppCheckObj 1) {| token := "abc" |};
            CallGetAppCheckToken None None]);
    [reflexivity|by repeat constructor].
Defined.

(** The first ref holds "abc"; the ref of a second setup is another
    one and is unset. *)
Lemma setup_again_provides_fresh_ref_witness :
  let before := [CallSetup (Sample.options None) Sample.fa0 Sample.app0;
                 TokenChanged (AppCheckObj 1) {| token := "abc" |}] in
  let w := Sample.run_on true before initial_world in
  let w' := snd (Sample.setup true None w) in
  provides w !! Sample.app0 = Some (TokenRefObj 0) /\
  ref_value (TokenRefObj 0) w = Some "abc" /\
  exists cell,
    provides w' !! Sample.app0 = Some cell /\
    cell <> TokenRefObj 0 /\
    ref_value cell w' = None /\
    ref_value (TokenRefObj 0) w' = ref_value (TokenRefObj 0) w.
Proof.
  split; [reflexivity|]. split; [reflexivity|].
  apply (setup_again_provides_fresh_ref true Sample.useFirebaseApp
           Sample.sdk_initializeAppCheck Sample.sdk_getToken
           [CallSetup (Sample.options None) Sample.fa0 Sample.app0;
            TokenChanged (AppCheckObj 1) {| token := "abc" |}]
           (Sample.options None) Sample.fa0 Sample.app0 (TokenRefObj 0));
    reflexivity.
Defined.

Lemma getAppCheckToken_after_setup_witness :
  fst (Sample.setup true None initial_world) = Normal tt /\
  exists appCheck,
    AppCheckMap (snd (Sample.setup true None initial_world)) !! Sample.fa0
    = Some appCheck /\
    forall later name forceRefresh,
      Forall (fun a => is_setup_of Sample.fa0 a = false) later ->
      Sample.useFirebaseApp name = inr Sample.fa0 ->
      let w' := Sample.run_on true later
                  (snd (Sample.setup true None initial_world)) in
      getAppCheckToken Sample.useFirebaseApp Sample.sdk_getToken name
        forceRefresh w'
      = (Normal (Sample.sdk_getToken w' appCheck forceRefresh),
         log (EvGetToken appCheck forceRefresh) w').
Proof.
  split; [reflexivity|].
  apply (getAppCheckToken_after_setup true Sample.useFirebaseApp
           Sample.sdk_initializeAppCheck Sample.sdk_getToken
           (Sample.options None) Sample.fa0 Sample.app0 initial_world);
    reflexivity.
Defined.

